(** * BraTS label transforms (src/utils/transforms.py)

    A shallow embedding of the two custom transforms of the pipeline,
    [ConvertToMultiChannelBasedOnBratsClassesd] (label volume to the three
    channels TC, WT, ET) and [ConvertToBratsClassesBasedOnMultiChannel]
    (three channels back to one label volume), over a small model of the
    tensor operations they call. *)

From Stdlib Require Import ZArith Lia.
From stdpp Require Import base option list gmap strings.

Local Open Scope Z_scope.

(** ** Exceptions and results *)

Inductive exn : Type :=
  | KeyError
  | TypeError
  | IndexError
  | RuntimeError
  | AssertionError.

Inductive result (A : Type) : Type :=
  | Ok (a : A)
  | Raise (e : exn).
Arguments Ok {A} a.
Arguments Raise {A} e.

#[global] Instance result_ret : MRet result := fun _ a => Ok a.
#[global] Instance result_bind : MBind result := fun _ _ f m =>
  match m with
  | Ok a => f a
  | Raise e => Raise e
  end.

(** ** Tensors

    A tensor is its dtype, its shape and its elements in row-major order, as
    a contiguous torch tensor stores them. Element values are integers: the
    transforms only ever hold label values and the small integers computed
    from them, which bool (False/True as 0/1), int64 and float32 tensors all
    represent exactly. *)

Module Torch.

Inductive dtype : Type := torch_bool | torch_int64 | torch_float32.

Record tensor : Type := Tensor {
  t_dtype : dtype;
  t_shape : list nat;
  t_elems : list Z
}.

Definition numel (shape : list nat) : nat := foldr Nat.mul 1%nat shape.

(** The representation invariant of a tensor. *)
Definition wf (t : tensor) : Prop := length (t_elems t) = numel (t_shape t).

Definition shape_eqb (s1 s2 : list nat) : bool := bool_decide (s1 = s2).

Definition of_bool (b : bool) : Z := if b then 1 else 0.

(** Truth value of an element, as [torch.logical_or] reads it. *)
Definition truthy (v : Z) : bool := negb (v =? 0).

(** Type promotion of a tensor with a Python int scalar or with another
    tensor: bool < int64 < float32. *)
Definition promote_int (d : dtype) : dtype :=
  match d with
  | torch_float32 => torch_float32
  | _ => torch_int64
  end.

Definition promote (d1 d2 : dtype) : dtype :=
  match d1, d2 with
  | torch_float32, _ | _, torch_float32 => torch_float32
  | torch_int64, _ | _, torch_int64 => torch_int64
  | torch_bool, torch_bool => torch_bool
  end.

(** [t == c] *)
Definition eq_scalar (t : tensor) (c : Z) : tensor :=
  Tensor torch_bool (t_shape t) (map (fun v => of_bool (v =? c)) (t_elems t)).

(** [t != c] *)
Definition ne_scalar (t : tensor) (c : Z) : tensor :=
  Tensor torch_bool (t_shape t) (map (fun v => of_bool (negb (v =? c))) (t_elems t)).

(** [t > c] *)
Definition gt_scalar (t : tensor) (c : Z) : tensor :=
  Tensor torch_bool (t_shape t) (map (fun v => of_bool (c <? v)) (t_elems t)).

(** Element-wise binary operations. The transforms only combine tensors
    that were derived from one tensor and so have one shape; operands of
    different shapes are not broadcast here but refused. *)
Definition pointwise (d : dtype) (f : Z -> Z -> Z) (a b : tensor) : result tensor :=
  if shape_eqb (t_shape a) (t_shape b)
  then Ok (Tensor d (t_shape a) (zip_with f (t_elems a) (t_elems b)))
  else Raise RuntimeError.

(** [torch.logical_or(a, b)] *)
Definition logical_or (a b : tensor) : result tensor :=
  pointwise torch_bool (fun x y => of_bool (truthy x || truthy y)) a b.

(** [torch.add(a, b)] *)
Definition add (a b : tensor) : result tensor :=
  pointwise (promote (promote_int (t_dtype a)) (t_dtype b)) Z.add a b.

(** [torch.mul(t, c)] with a Python int [c] *)
Definition mul (t : tensor) (c : Z) : tensor :=
  Tensor (promote_int (t_dtype t)) (t_shape t) (map (fun v => v * c) (t_elems t)).

(** [t.float()] *)
Definition float (t : tensor) : tensor :=
  Tensor torch_float32 (t_shape t) (t_elems t).

(** The value an element takes when it is stored in a tensor of dtype [d],
    as [copy_] converts it: a bool tensor stores whether it is non-zero, an
    int64 or float32 tensor stores the integer itself. *)
Definition cast (d : dtype) (v : Z) : Z :=
  match d with
  | torch_bool => of_bool (truthy v)
  | torch_int64 | torch_float32 => v
  end.

(** [torch.stack(ts, axis=0)]: a new leading dimension, one slice per
    tensor of the list, which must be non-empty and of one shape. *)
Definition stack (ts : list tensor) : result tensor :=
  match ts with
  | [] => Raise RuntimeError
  | t0 :: rest =>
      if forallb (fun t => shape_eqb (t_shape t) (t_shape t0)) rest
      then Ok (Tensor (foldr (fun t d => promote (t_dtype t) d) (t_dtype t0) rest)
                      (length ts :: t_shape t0)
                      (concat (map t_elems ts)))
      else Raise RuntimeError
  end.

(** [t[i]]: the i-th slice along the first dimension. *)
Definition select (t : tensor) (i : nat) : result tensor :=
  match t_shape t with
  | [] => Raise IndexError
  | n :: shape =>
      if (i <? n)%nat
      then Ok (Tensor (t_dtype t) shape
                      (take (numel shape) (drop (i * numel shape) (t_elems t))))
      else Raise IndexError
  end.

(** [bool(torch.any(t))] *)
Definition any (t : tensor) : bool := existsb truthy (t_elems t).

(** The element of channel [c] at flat position [i] of the channel. *)
Definition voxel (t : tensor) (c i : nat) : option Z :=
  match select t c with
  | Ok s => t_elems s !! i
  | Raise _ => None
  end.

End Torch.

Import Torch.

(** ** Samples and meta tensors *)

(** An entry of a sample dictionary: a tensor, or anything else the pipeline
    keeps next to the volumes (file names, meta dictionaries). *)
Inductive value : Type :=
  | VTensor (t : tensor)
  | VOther (payload : string).

(** [monai.data.MetaTensor]: an array and its meta data. *)
Record MetaTensor : Type := mkMetaTensor {
  array : tensor;
  meta : gmap string string
}.

(** [MetaTensor.set_array(src)] copies [src] into the tensor in place
    ([self.copy_]): [self] keeps its shape and dtype, the elements of [src]
    are converted to that dtype, and a [src] that lacks the leading
    dimension is broadcast along it. When the copy is refused the method
    falls back to [self.data = src], which converts nothing. *)
Definition set_array (self : MetaTensor) (src : tensor) : MetaTensor :=
  let a := array self in
  let copied := map (cast (t_dtype a)) (t_elems src) in
  if shape_eqb (t_shape a) (t_shape src)
  then mkMetaTensor (Tensor (t_dtype a) (t_shape a) copied) (meta self)
  else match t_shape a with
       | n :: shape =>
           if shape_eqb shape (t_shape src)
           then mkMetaTensor
                  (Tensor (t_dtype a) (t_shape a) (concat (replicate n copied)))
                  (meta self)
           else mkMetaTensor src (meta self)
       | [] => mkMetaTensor src (meta self)
       end.

(** ** ConvertToMultiChannelBasedOnBratsClassesd *)

Module ConvertToMultiChannelBasedOnBratsClassesd.

(** The body of the loop of [__call__] on the tensor [d[key]]. *)
Definition convert (x : tensor) : result tensor :=
  (* merge label 2 and label 3 to construct TC *)
  tc ← logical_or (eq_scalar x 2) (eq_scalar x 3);
  (* merge labels 1, 2 and 3 to construct WT *)
  tc' ← logical_or (eq_scalar x 2) (eq_scalar x 3);
  wt ← logical_or tc' (eq_scalar x 1);
  (* label 2 is ET *)
  let et := eq_scalar x 2 in
  stacked ← stack [tc; wt; et];
  mret (float stacked).

(** One iteration: [d[key]] must exist and be a tensor. *)
Definition step (d : gmap string value) (key : string) : result (gmap string value) :=
  match d !! key with
  | None => Raise KeyError
  | Some (VOther _) => Raise TypeError
  | Some (VTensor x) =>
      y ← convert x;
      mret (<[key := VTensor y]> d)
  end.

Fixpoint loop (keys : list string) (d : gmap string value) : result (gmap string value) :=
  match keys with
  | [] => mret d
  | key :: keys' => d' ← step d key; loop keys' d'
  end.

(** [__call__(self, data)]: [d = dict(data)] is a copy, so the caller's
    dictionary is the argument and the result is the new one. *)
Definition call (self_keys : list string) (data : gmap string value)
  : result (gmap string value) :=
  loop self_keys data.

End ConvertToMultiChannelBasedOnBratsClassesd.

(** ** ConvertToBratsClassesBasedOnMultiChannel *)

Module ConvertToBratsClassesBasedOnMultiChannel.

(** [__call__] up to and including its assertion: the value of [output]. *)
Definition output_of (data : tensor) : result tensor :=
  (* order in data is: TC->WT->ET *)
  tc ← select data 0;
  wt ← select data 1;
  et ← select data 2;
  (* ET is label 2 *)
  let label2 := et in
  (* label 3 is "TC and not label2" <=> "TC and not ET" *)
  label3 ← logical_or tc (ne_scalar et 1);
  (* label 1 is "WT and not label 2 and not label 3" *)
  inner ← logical_or (ne_scalar label2 1) (ne_scalar label3 1);
  label1 ← logical_or wt inner;
  (* set values of different labels *)
  let label2 := mul label1 1 in
  let label2 := mul label2 2 in
  let label3 := mul label3 3 in
  (* merge the segmentations in one image *)
  rest ← add label2 label3;
  output ← add label1 rest;
  if any (gt_scalar output 3) then mret output else Raise AssertionError.

(** [__call__(self, data)]: the caller's object [data] after the call, and
    the value returned or the exception raised. *)
Definition call (data : MetaTensor) : MetaTensor * result MetaTensor :=
  match output_of (array data) with
  | Raise e => (data, Raise e)
  | Ok output =>
      let data' := set_array data output in
      (data', Ok (mkMetaTensor output (meta data')))
  end.

End ConvertToBratsClassesBasedOnMultiChannel.

Module Enc := ConvertToMultiChannelBasedOnBratsClassesd.
Module Dec := ConvertToBratsClassesBasedOnMultiChannel.

(** decode(encode(x)): the decoder applied to the encoder's output. *)
Definition roundtrip (x : tensor) : result tensor :=
  y ← Enc.convert x;
  new_data ← (Dec.call (mkMetaTensor y ∅)).2;
  mret (array new_data).

(** ** Closed forms and sample inputs *)

(** The indicator of a predicate on label values, over a whole volume. *)
Definition indicator (p : Z → bool) (x : tensor) : list Z :=
  map (fun v => of_bool (p v)) (t_elems x).

(** The three channels in the words of the data model: Tumor Core is labels
    2 and 3, Whole Tumor is labels 1, 2 and 3, Enhancing Tumor is label 2. *)
Definition tc_elems : tensor → list Z := indicator (fun v => (v =? 2) || (v =? 3)).
Definition wt_elems : tensor → list Z := indicator (fun v => (v =? 1) || (v =? 2) || (v =? 3)).
Definition et_elems : tensor → list Z := indicator (fun v => v =? 2).

(** What [Enc.convert] returns (lemma [convert_eq]). *)
Definition encoded (x : tensor) : tensor :=
  Tensor torch_float32 (3%nat :: t_shape x) (tc_elems x ++ wt_elems x ++ et_elems x).

(** What the statements of the decoder compute at one voxel (lemma
    [output_of_eq]): [label3], [label1], the three products and the sum. *)
Definition decode_voxel (tc wt et : Z) : Z :=
  let not_et := of_bool (negb (et =? 1)) in
  let label3 := of_bool (truthy tc || truthy not_et) in
  let not_label3 := of_bool (negb (label3 =? 1)) in
  let label1 := of_bool (truthy wt || truthy (of_bool (truthy not_et || truthy not_label3))) in
  label1 + (label1 * 1 * 2 + label3 * 3).

Definition zip_with3 {A B C D} (f : A → B → C → D)
    (la : list A) (lb : list B) (lc : list C) : list D :=
  zip_with (fun ab c => f ab.1 ab.2 c) (zip la lb) lc.

(** The elements of channel [c] of a tensor, and what the decoder computes
    from the first three channels (lemma [output_of_eq]). *)
Definition channel_elems (t : tensor) (c : nat) : list Z :=
  let m := numel (tail (t_shape t)) in
  take m (drop (c * m) (t_elems t)).

Definition decoded (data : tensor) : tensor :=
  Tensor torch_int64 (tail (t_shape data))
    (zip_with3 decode_voxel
       (channel_elems data 0) (channel_elems data 1) (channel_elems data 2)).

(** The decoder's algorithm in the words of its description: ET voxels get
    2, TC-but-not-ET voxels get 3, WT-but-not-(TC or ET) voxels get 1,
    everything else is background. *)
Definition spec_label (tc wt et : Z) : Z :=
  if et =? 1 then 2
  else if tc =? 1 then 3
  else if wt =? 1 then 1
  else 0.

(** A label volume is valid when its values lie in {0,1,2,3}, and a
    multi-channel volume is binary when its values lie in {0,1}. *)
Definition valid_labels (x : tensor) : Prop := Forall (fun v => 0 ≤ v ≤ 3) (t_elems x).
Definition binary (t : tensor) : Prop := Forall (fun v => v = 0 ∨ v = 1) (t_elems t).

(** Four voxels, one of each label. *)
Definition labels_0123 : tensor :=
  Tensor torch_int64 [2%nat; 2%nat; 1%nat] [0; 1; 2; 3].

(** Eight voxels, one for each combination of the three channels. *)
Definition all_combinations : MetaTensor :=
  mkMetaTensor
    (Tensor torch_float32 [3%nat; 2%nat; 2%nat; 2%nat]
       [0; 0; 0; 0; 1; 1; 1; 1;
        0; 0; 1; 1; 0; 0; 1; 1;
        0; 1; 0; 1; 0; 1; 0; 1])
    ∅.

(** One background voxel: TC = WT = ET = 0. *)
Definition background_voxel : MetaTensor :=
  mkMetaTensor (Tensor torch_float32 [3%nat; 1%nat; 1%nat; 1%nat] [0; 0; 0]) ∅.

(** One voxel with TC = 1, WT = 0, ET = 1. *)
Definition core_voxel : MetaTensor :=
  mkMetaTensor (Tensor torch_float32 [3%nat; 1%nat; 1%nat; 1%nat] [1; 0; 1]) ∅.

(** A sample as the training pipeline holds it when the encoder runs. *)
Definition sample : gmap string value :=
  <["image" := VTensor (Tensor torch_float32 [1%nat; 2%nat; 2%nat; 1%nat] [10; 20; 30; 40])]>
  (<["label" := VTensor labels_0123]>
  (<["label_path" := VOther "BRATS_001.nii.gz"]> ∅)).

(** ** Definitions for the further properties *)

(** What the decoder's statements amount to at one voxel, for any values of
    the channels (lemma [decode_voxel_cases]). *)
Definition decode_value (tc wt et : Z) : Z :=
  if (et =? 1) && ((tc =? 0) || (wt =? 0)) then 3 else 6.

(** A label volume with every value other than 1, 2, 3 set to 0. *)
Definition background_outside (x : tensor) : tensor :=
  Tensor (t_dtype x) (t_shape x)
    (map (fun v => if (1 <=? v) && (v <=? 3) then v else 0) (t_elems x)).

(** The first three channels of a tensor. *)
Definition first_three (data : tensor) : tensor :=
  Tensor (t_dtype data) (3%nat :: tail (t_shape data))
    (take (3 * numel (tail (t_shape data))) (t_elems data)).

(** One background voxel held in a bool tensor, and one voxel that already
    holds 6 in every channel. *)
Definition bool_voxel : MetaTensor :=
  mkMetaTensor (Tensor torch_bool [3%nat; 1%nat; 1%nat; 1%nat] [0; 0; 0]) ∅.

Definition six_voxel : MetaTensor :=
  mkMetaTensor (Tensor torch_float32 [3%nat; 1%nat; 1%nat; 1%nat] [6; 6; 6]) ∅.

(** Two channels only, no voxel at all, and a fourth channel. *)
Definition two_channels : MetaTensor :=
  mkMetaTensor (Tensor torch_float32 [2%nat; 1%nat; 1%nat; 1%nat] [0; 1]) ∅.

Definition no_voxel : MetaTensor :=
  mkMetaTensor (Tensor torch_float32 [3%nat; 0%nat; 1%nat; 1%nat] []) ∅.

Definition four_channels : MetaTensor :=
  mkMetaTensor (Tensor torch_float32 [4%nat; 2%nat; 1%nat; 1%nat]
                  [1; 0; 1; 1; 1; 0; 0; 1]) ∅.

(** The image volume of [sample]. *)
Definition sample_image : tensor :=
  Tensor torch_float32 [1%nat; 2%nat; 2%nat; 1%nat] [10; 20; 30; 40].

(** * Properties *)

(** ** Lists and tensor operations *)

(** Checks a property of every element of an explicit list. *)
Ltac each_elem tac :=
  repeat first [apply Forall_nil_2 | apply Forall_cons_2; [by tac |]].

Lemma truthy_of_bool (b : bool) : truthy (of_bool b) = b.
Proof. by destruct b. Qed.

Lemma of_bool_binary (b : bool) : of_bool b = 0 ∨ of_bool b = 1.
Proof. destruct b; auto. Qed.

Lemma of_bool_one (b : bool) : of_bool b = 1 ↔ b = true.
Proof. destruct b; simpl; split; congruence. Qed.

Lemma shape_eqb_refl (s : list nat) : shape_eqb s s = true.
Proof. unfold shape_eqb. by rewrite bool_decide_eq_true. Qed.

Lemma zip_with_map_same {A B C D} (f : B → C → D) (g : A → B) (h : A → C) (l : list A) :
  zip_with f (map g l) (map h l) = map (fun v => f (g v) (h v)) l.
Proof. induction l as [|v l IH]; simpl; [done | by rewrite IH]. Qed.

Lemma pointwise_same_shape d f (a b : tensor) :
  t_shape a = t_shape b →
  pointwise d f a b = Ok (Tensor d (t_shape a) (zip_with f (t_elems a) (t_elems b))).
Proof. intros E. unfold pointwise. by rewrite E, shape_eqb_refl. Qed.

Lemma take_drop_concat_replicate {A} (l : list A) (m n c : nat) :
  length l = m → (c < n)%nat →
  take m (drop (c * m) (concat (replicate n l))) = l.
Proof.
  intros <-. revert c. induction n as [|n IH]; intros c Hc; [lia |].
  cbn [replicate concat]. destruct c as [|c].
  - rewrite Nat.mul_0_l, drop_0. apply take_app_length.
  - replace (S c * length l)%nat with (length l + c * length l)%nat by lia.
    rewrite drop_app_add. apply IH. lia.
Qed.

(** ** The encoder on one volume *)

Section Encoder.

Variable x : tensor.

(** The encoder never raises on a tensor, and this is what it returns. *)
Lemma convert_eq : Enc.convert x = Ok (encoded x).
Proof.
  unfold encoded.
  unfold Enc.convert, logical_or, eq_scalar.
  rewrite pointwise_same_shape by done. cbn [mbind result_bind].
  rewrite pointwise_same_shape by done. cbn [mbind result_bind mret result_ret].
  unfold stack. cbn [t_shape t_elems t_dtype forallb foldr].
  rewrite !shape_eqb_refl.
  cbn [andb promote length map concat float t_dtype t_shape t_elems
       mbind result_bind mret result_ret].
  rewrite app_nil_r, !zip_with_map_same.
  unfold tc_elems, wt_elems, et_elems, indicator, float. cbn [t_shape t_elems].
  do 2 f_equal. f_equal; [| f_equal].
  - apply map_ext. intros v. by rewrite !truthy_of_bool.
  - apply map_ext. intros v. rewrite !truthy_of_bool.
    by destruct (v =? 1), (v =? 2), (v =? 3).
Qed.

Hypothesis Hwf : wf x.

Lemma select_convert_0 y :
  Enc.convert x = Ok y → select y 0 = Ok (Tensor torch_float32 (t_shape x) (tc_elems x)).
Proof.
  rewrite convert_eq. intros [= <-]. unfold encoded, select. cbn.
  f_equal. f_equal. apply take_app_length'. unfold tc_elems, indicator.
  by rewrite length_map.
Qed.

Lemma select_convert_1 y :
  Enc.convert x = Ok y → select y 1 = Ok (Tensor torch_float32 (t_shape x) (wt_elems x)).
Proof.
  rewrite convert_eq. intros [= <-]. unfold encoded, select. cbn [t_shape t_dtype t_elems].
  change (1 <? 3)%nat with true. cbn iota. f_equal. f_equal.
  rewrite Nat.mul_1_l, drop_app_length' by (unfold tc_elems, indicator; by rewrite length_map).
  apply take_app_length'. unfold wt_elems, indicator. by rewrite length_map.
Qed.

Lemma select_convert_2 y :
  Enc.convert x = Ok y → select y 2 = Ok (Tensor torch_float32 (t_shape x) (et_elems x)).
Proof.
  rewrite convert_eq. intros [= <-]. unfold encoded, select. cbn [t_shape t_dtype t_elems].
  change (2 <? 3)%nat with true. cbn iota. f_equal. f_equal.
  rewrite app_assoc, drop_app_length'.
  - rewrite <- (app_nil_r (et_elems x)) at 1. apply take_app_length'.
    unfold et_elems, indicator. by rewrite length_map.
  - unfold tc_elems, wt_elems, indicator. rewrite length_app, !length_map.
    unfold wf in Hwf. lia.
Qed.

Lemma wf_convert y : Enc.convert x = Ok y → wf y.
Proof.
  rewrite convert_eq. intros [= <-].
  unfold encoded, wf, numel, tc_elems, wt_elems, et_elems, indicator in *.
  cbn [t_shape t_elems foldr]. rewrite !length_app, !length_map. lia.
Qed.

End Encoder.

Lemma lookup_indicator (p : Z → bool) (x : tensor) (i : nat) :
  indicator p x !! i = (fun v => of_bool (p v)) <$> (t_elems x !! i).
Proof. unfold indicator. apply list_lookup_fmap. Qed.

Lemma binary_indicator (p : Z → bool) (x : tensor) :
  Forall (fun v => v = 0 ∨ v = 1) (indicator p x).
Proof.
  unfold indicator. apply Forall_fmap, Forall_true. intros v.
  apply of_bool_binary.
Qed.

(** The three channels of [encoded x], voxel by voxel. *)
Lemma voxel_encoded (x : tensor) (i : nat) :
  wf x →
  voxel (encoded x) 0 i = tc_elems x !! i ∧
  voxel (encoded x) 1 i = wt_elems x !! i ∧
  voxel (encoded x) 2 i = et_elems x !! i.
Proof.
  intros Hwf. unfold voxel.
  rewrite (select_convert_0 x Hwf _ (convert_eq x)).
  rewrite (select_convert_1 x Hwf _ (convert_eq x)).
  by rewrite (select_convert_2 x Hwf _ (convert_eq x)).
Qed.

(** C2. For every label volume [x] the encoder returns a float tensor with
    three channels over the shape of [x], all of whose values are 0 or 1,
    and whose channels 0, 1, 2 (TC, WT, ET) hold at each voxel the
    indicators of [x==2 or x==3], of [x==1 or x==2 or x==3] and of
    [x==2]. *)
Theorem encoder_channels_are_indicators (x : tensor) (Hwf : wf x) :
  ∃ y, Enc.convert x = Ok y ∧
    t_dtype y = torch_float32 ∧
    t_shape y = 3%nat :: t_shape x ∧
    wf y ∧
    binary y ∧
    ∀ i v, t_elems x !! i = Some v →
      voxel y 0 i = Some (of_bool ((v =? 2) || (v =? 3))) ∧
      voxel y 1 i = Some (of_bool ((v =? 1) || (v =? 2) || (v =? 3))) ∧
      voxel y 2 i = Some (of_bool (v =? 2)).
Proof.
  exists (encoded x). split; [apply convert_eq |].
  split; [done |]. split; [done |].
  split; [by apply (wf_convert x Hwf), convert_eq |].
  split.
  - unfold binary, encoded, tc_elems, wt_elems, et_elems. cbn [t_elems].
    rewrite !Forall_app. repeat split; apply binary_indicator.
  - intros i v Hv. destruct (voxel_encoded x i Hwf) as (-> & -> & ->).
    unfold tc_elems, wt_elems, et_elems. rewrite !lookup_indicator, Hv. done.
Qed.

Lemma encoder_channels_are_indicators_witness :
  wf labels_0123 ∧
  ∃ y, Enc.convert labels_0123 = Ok y ∧
    t_dtype y = torch_float32 ∧
    t_shape y = 3%nat :: t_shape labels_0123 ∧
    wf y ∧
    binary y ∧
    ∀ i v, t_elems labels_0123 !! i = Some v →
      voxel y 0 i = Some (of_bool ((v =? 2) || (v =? 3))) ∧
      voxel y 1 i = Some (of_bool ((v =? 1) || (v =? 2) || (v =? 3))) ∧
      voxel y 2 i = Some (of_bool (v =? 2)).
Proof.
  split; [reflexivity |].
  apply (encoder_channels_are_indicators labels_0123). reflexivity.
Defined.

(** C7. In the encoder's output every voxel that is 1 in the TC channel is 1
    in the WT channel, and every voxel that is 1 in the ET channel is 1 in
    the WT channel. *)
Theorem encoder_tc_et_within_wt (x y : tensor) (i : nat) :
  wf x → Enc.convert x = Ok y →
  (voxel y 0 i = Some 1 → voxel y 1 i = Some 1) ∧
  (voxel y 2 i = Some 1 → voxel y 1 i = Some 1).
Proof.
  intros Hwf. rewrite convert_eq. intros [= <-].
  destruct (voxel_encoded x i Hwf) as (-> & -> & ->).
  unfold tc_elems, wt_elems, et_elems. rewrite !lookup_indicator.
  destruct (t_elems x !! i) as [v|]; cbn [fmap option_fmap option_map]; [| done].
  split; intros [= H%of_bool_one]; f_equal; apply of_bool_one.
  - destruct (v =? 1); [done |]. exact H.
  - rewrite H. by destruct (v =? 1).
Qed.

Lemma encoder_tc_et_within_wt_witness :
  wf labels_0123 ∧ Enc.convert labels_0123 = Ok (encoded labels_0123) ∧
  (voxel (encoded labels_0123) 0 3 = Some 1 → voxel (encoded labels_0123) 1 3 = Some 1) ∧
  (voxel (encoded labels_0123) 2 3 = Some 1 → voxel (encoded labels_0123) 1 3 = Some 1).
Proof.
  split; [reflexivity |]. split; [reflexivity |].
  apply (encoder_tc_et_within_wt labels_0123 (encoded labels_0123) 3); reflexivity.
Defined.

(** C10. In the encoder's output every voxel that is 1 in the ET channel is
    also 1 in the TC channel, so that with C7 the channels are nested,
    ET within TC within WT. *)
Theorem encoder_et_within_tc (x y : tensor) (i : nat) :
  wf x → Enc.convert x = Ok y →
  (voxel y 2 i = Some 1 → voxel y 0 i = Some 1) ∧
  (voxel y 0 i = Some 1 → voxel y 1 i = Some 1).
Proof.
  intros Hwf. rewrite convert_eq. intros [= <-].
  destruct (voxel_encoded x i Hwf) as (-> & -> & ->).
  unfold tc_elems, wt_elems, et_elems. rewrite !lookup_indicator.
  destruct (t_elems x !! i) as [v|]; cbn [fmap option_fmap option_map]; [| done].
  split; intros [= H%of_bool_one]; f_equal; apply of_bool_one.
  - by rewrite H.
  - destruct (v =? 1); [done |]. exact H.
Qed.

Lemma encoder_et_within_tc_witness :
  wf labels_0123 ∧ Enc.convert labels_0123 = Ok (encoded labels_0123) ∧
  (voxel (encoded labels_0123) 2 2 = Some 1 → voxel (encoded labels_0123) 0 2 = Some 1) ∧
  (voxel (encoded labels_0123) 0 2 = Some 1 → voxel (encoded labels_0123) 1 2 = Some 1).
Proof.
  split; [reflexivity |]. split; [reflexivity |].
  apply (encoder_et_within_tc labels_0123 (encoded labels_0123) 2); reflexivity.
Defined.

(** ** The encoder on a sample *)

Lemma step_tensor (d : gmap string value) (key : string) (x : tensor) :
  d !! key = Some (VTensor x) →
  Enc.step d key = Ok (<[key := VTensor (encoded x)]> d).
Proof. intros H. unfold Enc.step. by rewrite H, convert_eq. Qed.

(** A successful iteration rewrites an entry that was there and nothing
    else. *)
Lemma step_inv (d d' : gmap string value) (key : string) :
  Enc.step d key = Ok d' →
  ∃ x, d !! key = Some (VTensor x) ∧ d' = <[key := VTensor (encoded x)]> d.
Proof.
  unfold Enc.step. destruct (d !! key) as [[x|s]|] eqn:E; [| done | done].
  rewrite convert_eq. intros [= <-]. by exists x.
Qed.

Lemma step_missing (d : gmap string value) (key : string) :
  d !! key = None → Enc.step d key = Raise KeyError.
Proof. intros H. unfold Enc.step. by rewrite H. Qed.

Lemma loop_frame (keys : list string) (d d' : gmap string value) :
  Enc.loop keys d = Ok d' →
  (∀ k, k ∉ keys → d' !! k = d !! k) ∧ dom d' = dom d.
Proof.
  revert d. induction keys as [|key keys IH]; intros d; cbn [Enc.loop].
  - by intros [= <-].
  - destruct (Enc.step d key) as [d1|e] eqn:E; [| done].
    cbn [mbind result_bind]. intros H.
    apply step_inv in E as (x & Hx & ->).
    apply IH in H as [Hframe Hdom]. split.
    + intros k Hk. apply not_elem_of_cons in Hk as [Hne Hk].
      rewrite Hframe by done. by rewrite lookup_insert_ne.
    + rewrite Hdom, dom_insert_L.
      apply subseteq_union_1_L, singleton_subseteq_l, elem_of_dom. eauto.
Qed.

Lemma loop_total (keys : list string) (d : gmap string value) :
  (∀ k, k ∈ keys → ∃ x, d !! k = Some (VTensor x)) →
  ∃ d', Enc.loop keys d = Ok d'.
Proof.
  revert d. induction keys as [|key keys IH]; intros d Hd; cbn [Enc.loop].
  - by exists d.
  - destruct (Hd key) as [x Hx]; [by left |].
    rewrite (step_tensor _ _ _ Hx). cbn [mbind result_bind].
    apply IH. intros k Hk.
    destruct (decide (key = k)) as [<-|Hne].
    + rewrite lookup_insert_eq. eauto.
    + rewrite lookup_insert_ne by done. apply Hd. by right.
Qed.

(** With each key listed once, the entry of every listed key is the
    encoding of the volume the caller put there. *)
Lemma call_lookup_encoded (keys : list string) (data d : gmap string value)
    (k : string) (x : tensor) :
  NoDup keys → k ∈ keys → data !! k = Some (VTensor x) →
  Enc.call keys data = Ok d →
  d !! k = Some (VTensor (encoded x)).
Proof.
  unfold Enc.call. intros Hnd. revert data.
  induction Hnd as [|key keys Hnotin Hnd IH]; intros data Hk Hx; cbn [Enc.loop].
  - by apply elem_of_nil in Hk.
  - destruct (Enc.step data key) as [d1|e] eqn:E; [| done].
    cbn [mbind result_bind]. intros H.
    apply step_inv in E as (x0 & Hx0 & ->).
    apply elem_of_cons in Hk as [->|Hk].
    + apply loop_frame in H as [Hframe _]. rewrite Hframe by done.
      rewrite lookup_insert_eq. congruence.
    + apply (IH (<[key:=VTensor (encoded x0)]> data) Hk); [| done].
      rewrite lookup_insert_ne; [done |]. intros ->. contradiction.
Qed.

(** C8. On a sample that holds a tensor under every key of [self.keys] the
    encoder returns a sample and raises nothing. *)
Theorem encoder_total (self_keys : list string) (data : gmap string value) :
  (∀ k, k ∈ self_keys → ∃ x, data !! k = Some (VTensor x)) →
  ∃ d, Enc.call self_keys data = Ok d.
Proof. apply loop_total. Qed.

Lemma encoder_total_witness :
  (∀ k, k ∈ ["label"] → ∃ x, sample !! k = Some (VTensor x)) ∧
  ∃ d, Enc.call ["label"] sample = Ok d.
Proof.
  assert (H : ∀ k, k ∈ ["label"] → ∃ x, sample !! k = Some (VTensor x)).
  { intros k Hk. apply list_elem_of_singleton in Hk as ->.
    exists labels_0123. reflexivity. }
  split; [exact H |]. exact (encoder_total ["label"] sample H).
Defined.

(** C9. Whenever the encoder returns, every entry whose key is not in
    [self.keys] is the caller's entry, and the returned dictionary has the
    keys of the caller's dictionary. *)
Theorem encoder_frame (self_keys : list string) (data d : gmap string value) :
  Enc.call self_keys data = Ok d →
  (∀ k, k ∉ self_keys → d !! k = data !! k) ∧ dom d = dom data.
Proof. apply loop_frame. Qed.

Lemma encoder_frame_witness :
  Enc.call ["label"] sample = Ok (<["label" := VTensor (encoded labels_0123)]> sample) ∧
  (∀ k, k ∉ ["label"] →
     (<["label" := VTensor (encoded labels_0123)]> sample) !! k = sample !! k) ∧
  dom (<["label" := VTensor (encoded labels_0123)]> sample) = dom sample.
Proof.
  assert (H : Enc.call ["label"] sample
              = Ok (<["label" := VTensor (encoded labels_0123)]> sample)).
  { unfold Enc.call. cbn [Enc.loop].
    rewrite (step_tensor sample "label" labels_0123); reflexivity. }
  split; [exact H |]. exact (encoder_frame ["label"] sample _ H).
Defined.

(** ** The decoder *)

Lemma select_channel (t : tensor) (c : nat) :
  (c < hd 0%nat (t_shape t))%nat →
  select t c = Ok (Tensor (t_dtype t) (tail (t_shape t)) (channel_elems t c)).
Proof.
  unfold select, channel_elems. destruct (t_shape t) as [|n s]; cbn [hd tail].
  - lia.
  - intros Hc. apply Nat.ltb_lt in Hc. by rewrite Hc.
Qed.

Lemma select_out_of_range (t : tensor) (c : nat) :
  (hd 0%nat (t_shape t) ≤ c)%nat → select t c = Raise IndexError.
Proof.
  unfold select. destruct (t_shape t) as [|n s]; cbn [hd]; [done |].
  intros Hc. apply Nat.ltb_ge in Hc. by rewrite Hc.
Qed.

(** The statements of the decoder, on the elements of the three channels. *)
Lemma decode_lists (tcs wts ets : list Z) :
  let f := fun x y => of_bool (truthy x || truthy y) in
  let ne1 := map (fun v => of_bool (negb (v =? 1))) in
  let label3 := zip_with f tcs (ne1 ets) in
  let label1 := zip_with f wts (zip_with f (ne1 ets) (ne1 label3)) in
  zip_with Z.add label1
    (zip_with Z.add (map (fun v => v * 2) (map (fun v => v * 1) label1))
                    (map (fun v => v * 3) label3))
  = zip_with3 decode_voxel tcs wts ets.
Proof.
  cbv zeta. unfold zip_with3. revert wts ets.
  induction tcs as [|tc tcs IH]; intros [|wt wts] [|et ets]; try done.
  all: cbn [zip zip_with map]; try done.
  all: try (by destruct wts).
  f_equal. apply IH.
Qed.

Lemma output_of_eq (data : tensor) :
  (3 ≤ hd 0%nat (t_shape data))%nat →
  Dec.output_of data =
  if any (gt_scalar (decoded data) 3) then Ok (decoded data) else Raise AssertionError.
Proof.
  intros Hn. unfold Dec.output_of.
  rewrite !select_channel by lia. cbn [mbind result_bind].
  unfold logical_or, add, ne_scalar, mul.
  repeat (rewrite pointwise_same_shape by done;
          cbn [mbind result_bind t_shape t_elems t_dtype promote promote_int]).
  rewrite decode_lists. done.
Qed.

Lemma output_of_few_channels (data : tensor) :
  (hd 0%nat (t_shape data) < 3)%nat → Dec.output_of data = Raise IndexError.
Proof.
  intros Hn. unfold Dec.output_of.
  destruct (decide (hd 0%nat (t_shape data) = 0%nat)) as [H0|H0].
  { by rewrite (select_out_of_range data 0) by lia. }
  rewrite (select_channel data 0) by lia. cbn [mbind result_bind].
  destruct (decide (hd 0%nat (t_shape data) = 1%nat)) as [H1|H1].
  { by rewrite (select_out_of_range data 1) by lia. }
  rewrite (select_channel data 1) by lia. cbn [mbind result_bind].
  by rewrite (select_out_of_range data 2) by lia.
Qed.

(** The decoder's output, voxel by voxel. *)
Lemma decoded_lookup (data : tensor) (i : nat) (tc wt et : Z) :
  channel_elems data 0 !! i = Some tc →
  channel_elems data 1 !! i = Some wt →
  channel_elems data 2 !! i = Some et →
  t_elems (decoded data) !! i = Some (decode_voxel tc wt et).
Proof.
  intros Htc Hwt Het. unfold decoded, zip_with3. cbn [t_elems].
  apply lookup_zip_with_Some. exists (tc, wt), et. split; [done |].
  split; [| done]. apply lookup_zip_with_Some. by exists tc, wt.
Qed.

(** On 0/1 channels the decoder writes 3 where ET is set and TC or WT is
    not, and 6 everywhere else. *)
Lemma decode_voxel_binary (tc wt et : Z) :
  (tc = 0 ∨ tc = 1) → (wt = 0 ∨ wt = 1) → (et = 0 ∨ et = 1) →
  decode_voxel tc wt et = if (et =? 1) && ((tc =? 0) || (wt =? 0)) then 3 else 6.
Proof. by intros [-> | ->] [-> | ->] [-> | ->]. Qed.

Lemma decode_voxel_never_spec_label (tc wt et : Z) :
  (tc = 0 ∨ tc = 1) → (wt = 0 ∨ wt = 1) → (et = 0 ∨ et = 1) →
  decode_voxel tc wt et ≠ spec_label tc wt et.
Proof. by intros [-> | ->] [-> | ->] [-> | ->]. Qed.

Lemma zip_with3_map_same {A B C D E} (f : B → C → D → E)
    (g : A → B) (h : A → C) (k : A → D) (l : list A) :
  zip_with3 f (map g l) (map h l) (map k l) = map (fun v => f (g v) (h v) (k v)) l.
Proof.
  unfold zip_with3. induction l as [|v l IH]; cbn [map zip zip_with]; [done |].
  cbn [fst snd]. f_equal. apply IH.
Qed.

Lemma channel_elems_length (t : tensor) (c : nat) :
  wf t → (c < hd 0%nat (t_shape t))%nat →
  length (channel_elems t c) = numel (tail (t_shape t)).
Proof.
  unfold wf, channel_elems. destruct (t_shape t) as [|n s]; cbn [hd tail]; [lia |].
  intros Hwf Hc. rewrite length_take, length_drop, Hwf.
  unfold numel. cbn [foldr]. fold (numel s). nia.
Qed.

Lemma zip_with3_length {A B C D} (f : A → B → C → D) la lb lc (m : nat) :
  length la = m → length lb = m → length lc = m →
  length (zip_with3 f la lb lc) = m.
Proof.
  intros Ha Hb Hc. unfold zip_with3.
  rewrite length_zip_with, length_zip. lia.
Qed.

Lemma wf_decoded (data : tensor) :
  wf data → (3 ≤ hd 0%nat (t_shape data))%nat → wf (decoded data).
Proof.
  intros Hwf Hn. unfold wf, decoded. cbn [t_elems t_shape].
  apply zip_with3_length; apply channel_elems_length; done || lia.
Qed.

(** The decoder either returns or fails its assertion as soon as the input
    has three channels, and raises [IndexError] when it has fewer. *)
Lemma decoder_outcomes (data : MetaTensor) :
  (3 ≤ hd 0%nat (t_shape (array data)))%nat →
  (Dec.call data).2 = Ok (mkMetaTensor (decoded (array data)) (meta data))
  ∨ Dec.call data = (data, Raise AssertionError).
Proof.
  intros Hn. unfold Dec.call. rewrite output_of_eq by done.
  destruct (any _); [left | right]; [| done].
  cbn [snd]. do 2 f_equal.
  unfold set_array. repeat case_match; done.
Qed.

(** The channels of the encoder's output, as the decoder reads them. *)
Lemma channel_elems_encoded (x : tensor) :
  wf x →
  channel_elems (encoded x) 0 = tc_elems x ∧
  channel_elems (encoded x) 1 = wt_elems x ∧
  channel_elems (encoded x) 2 = et_elems x.
Proof.
  intros Hwf.
  pose proof (select_convert_0 x Hwf _ (convert_eq x)) as H0.
  pose proof (select_convert_1 x Hwf _ (convert_eq x)) as H1.
  pose proof (select_convert_2 x Hwf _ (convert_eq x)) as H2.
  rewrite select_channel in H0, H1, H2 by (cbn; lia).
  by injection H0 as ->; injection H1 as ->; injection H2 as ->.
Qed.

(** What decoding the encoding of a valid label volume gives: 6 at every
    voxel, whatever the label was, and an assertion failure on a volume with
    no voxel. *)
Lemma roundtrip_valid_labels (x : tensor) :
  wf x → valid_labels x →
  roundtrip x =
  if bool_decide (t_elems x = [])
  then Raise AssertionError
  else Ok (Tensor torch_int64 (t_shape x) (map (fun _ => 6) (t_elems x))).
Proof.
  intros Hwf Hvalid. unfold roundtrip, Dec.call.
  rewrite convert_eq. cbn [mbind result_bind array].
  rewrite output_of_eq by (cbn; lia).
  assert (Hdec : decoded (encoded x)
                 = Tensor torch_int64 (t_shape x) (map (fun _ => 6) (t_elems x))).
  { unfold decoded. destruct (channel_elems_encoded x Hwf) as (-> & -> & ->).
    cbn [encoded t_shape tail]. f_equal.
    unfold tc_elems, wt_elems, et_elems, indicator. rewrite zip_with3_map_same.
    unfold valid_labels in Hvalid. induction Hvalid as [|v l Hv _ IH]; [done |].
    cbn [map]. f_equal; [| exact IH].
    assert (v = 0 ∨ v = 1 ∨ v = 2 ∨ v = 3) as [-> | [-> | [-> | ->]]] by lia; done. }
  rewrite Hdec. unfold any, gt_scalar. cbn [t_elems].
  destruct (t_elems x) as [|v l]; [done |].
  rewrite bool_decide_eq_false_2 by done. done.
Qed.

(** ** The decoder against its description *)

(** C1. The round trip does not return the label volume: on the volume
    holding the labels 0, 1, 2, 3 the decoder, applied to the encoder's
    output, returns 6 at all four voxels. *)
Theorem roundtrip_labels_0123 :
  wf labels_0123 ∧ valid_labels labels_0123 ∧
  roundtrip labels_0123
    = Ok (Tensor torch_int64 [2%nat; 2%nat; 1%nat] [6; 6; 6; 6]) ∧
  roundtrip labels_0123 ≠ Ok labels_0123.
Proof.
  split; [reflexivity |]. split.
  { unfold valid_labels, labels_0123. cbn [t_elems].
    each_elem lia. }
  split; [reflexivity |]. discriminate.
Qed.

(** C3. The decoder does not follow its description: on the eight
    combinations of the channels (TC, WT, ET) it returns 6, 3, 6, 3, 6, 3,
    6, 6 where the description gives 0, 2, 1, 2, 3, 2, 3, 2. *)
Theorem decoder_all_combinations :
  wf (array all_combinations) ∧ binary (array all_combinations) ∧
  (Dec.call all_combinations).2
    = Ok (mkMetaTensor
            (Tensor torch_int64 [2%nat; 2%nat; 2%nat] [6; 3; 6; 3; 6; 3; 6; 6]) ∅) ∧
  zip_with3 spec_label
    (channel_elems (array all_combinations) 0)
    (channel_elems (array all_combinations) 1)
    (channel_elems (array all_combinations) 2)
    = [0; 2; 1; 2; 3; 2; 3; 2].
Proof.
  split; [reflexivity |]. split.
  { unfold binary, all_combinations. cbn [array t_elems].
    each_elem auto. }
  split; reflexivity.
Qed.

(** C4. The decoder leaves the label domain: on one background voxel
    (TC = WT = ET = 0) it returns the value 6. *)
Theorem decoder_background_voxel :
  wf (array background_voxel) ∧ binary (array background_voxel) ∧
  (Dec.call background_voxel).2
    = Ok (mkMetaTensor (Tensor torch_int64 [1%nat; 1%nat; 1%nat] [6]) ∅) ∧
  ¬ valid_labels (Tensor torch_int64 [1%nat; 1%nat; 1%nat] [6]).
Proof.
  split; [reflexivity |]. split.
  { unfold binary, background_voxel. cbn [array t_elems].
    each_elem auto. }
  split; [reflexivity |].
  unfold valid_labels. cbn [t_elems]. intros H.
  apply Forall_cons in H as [H _]. lia.
Qed.

(** C5. The decoder's assertion fails on a well-typed binary input: on one
    voxel with TC = 1, WT = 0, ET = 1 the output is 3, no value exceeds 3,
    and the call raises [AssertionError]. *)
Theorem decoder_core_voxel_raises :
  wf (array core_voxel) ∧ binary (array core_voxel) ∧
  decoded (array core_voxel) = Tensor torch_int64 [1%nat; 1%nat; 1%nat] [3] ∧
  Dec.call core_voxel = (core_voxel, Raise AssertionError).
Proof.
  split; [reflexivity |]. split.
  { unfold binary, core_voxel. cbn [array t_elems].
    each_elem auto. }
  split; reflexivity.
Qed.

(** ** The decoder and the caller's tensor *)

Lemma select_set_array (data : MetaTensor) (src : tensor) (c : nat) :
  wf src → t_shape src = tail (t_shape (array data)) →
  (c < hd 0%nat (t_shape (array data)))%nat →
  set_array data src
    = mkMetaTensor
        (Tensor (t_dtype (array data)) (t_shape (array data))
           (concat (replicate (hd 0%nat (t_shape (array data)))
                      (map (cast (t_dtype (array data))) (t_elems src)))))
        (meta data) ∧
  select (array (set_array data src)) c
    = Ok (Tensor (t_dtype (array data)) (t_shape src)
            (map (cast (t_dtype (array data))) (t_elems src))).
Proof.
  unfold wf. intros Hwf Hshape Hc.
  destruct (t_shape (array data)) as [|n s] eqn:E; cbn [hd tail] in *; [lia |].
  assert (Hset : set_array data src
    = mkMetaTensor (Tensor (t_dtype (array data)) (n :: s)
                      (concat (replicate n
                         (map (cast (t_dtype (array data))) (t_elems src)))))
        (meta data)).
  { unfold set_array. rewrite E, Hshape.
    assert (shape_eqb (n :: s) s = false) as ->.
    { unfold shape_eqb. apply bool_decide_eq_false_2. intros H.
      apply (f_equal length) in H. cbn in H. lia. }
    by rewrite shape_eqb_refl. }
  split; [exact Hset |]. rewrite Hset. unfold select. cbn [array t_shape t_dtype t_elems].
  apply Nat.ltb_lt in Hc as Hc'. rewrite Hc', Hshape.
  do 2 f_equal. apply take_drop_concat_replicate; [| done].
  by rewrite length_map, Hwf, Hshape.
Qed.

(** C6, the claim at one background voxel: after the call the caller's
    tensor is not what it was. *)
Lemma decoder_mutates_input :
  (Dec.call background_voxel).1 ≠ background_voxel ∧
  (Dec.call background_voxel).1
    = mkMetaTensor (Tensor torch_float32 [3%nat; 1%nat; 1%nat; 1%nat] [6; 6; 6]) ∅.
Proof. split; [discriminate | reflexivity]. Qed.

(** C6, as the code has it. When the decoder returns, the caller's tensor
    has been overwritten in place: it keeps its dtype, shape and meta, and
    each of its channels holds the returned volume, converted to the
    caller's dtype; the tensor returned carries the caller's meta. When the
    call raises, the caller's tensor is as it was. *)
Theorem decoder_overwrites_input (data : MetaTensor) :
  wf (array data) →
  match Dec.call data with
  | (data', Ok new_data) =>
      t_dtype (array data') = t_dtype (array data) ∧
      t_shape (array data') = t_shape (array data) ∧
      meta data' = meta data ∧
      meta new_data = meta data ∧
      ∀ c, (c < hd 0%nat (t_shape (array data)))%nat →
        select (array data') c
          = Ok (Tensor (t_dtype (array data))
                  (t_shape (array new_data))
                  (map (cast (t_dtype (array data))) (t_elems (array new_data))))
  | (data', Raise _) => data' = data
  end.
Proof.
  intros Hwf. unfold Dec.call.
  destruct (decide (3 ≤ hd 0%nat (t_shape (array data)))%nat) as [Hn|Hn].
  - rewrite output_of_eq by done. destruct (any _); [| done].
    pose proof (wf_decoded _ Hwf Hn) as Hwfd.
    assert (Hsel := fun c => select_set_array data (decoded (array data)) c Hwfd eq_refl).
    destruct (Hsel 0%nat ltac:(lia)) as [Hset _]. cbn [array meta].
    repeat split; try (by rewrite Hset).
    intros c Hc. by destruct (Hsel c Hc) as [_ ->].
  - by rewrite output_of_few_channels by lia.
Qed.

(** A bool tensor is overwritten with [True]: the int64 values of the
    returned volume are converted to the caller's dtype. *)
Lemma decoder_overwrites_bool_input :
  Dec.call bool_voxel
  = (mkMetaTensor (Tensor torch_bool [3%nat; 1%nat; 1%nat; 1%nat] [1; 1; 1]) ∅,
     Ok (mkMetaTensor (Tensor torch_int64 [1%nat; 1%nat; 1%nat] [6]) ∅)).
Proof. reflexivity. Qed.

(** The write can store the values the tensor already held: a call that
    returns does not always leave the caller's tensor different. *)
Lemma decoder_rewrites_same_values :
  Dec.call six_voxel
  = (six_voxel, Ok (mkMetaTensor (Tensor torch_int64 [1%nat; 1%nat; 1%nat] [6]) ∅)).
Proof. reflexivity. Qed.

Lemma decoder_overwrites_input_witness :
  wf (array background_voxel) ∧
  match Dec.call background_voxel with
  | (data', Ok new_data) =>
      t_dtype (array data') = t_dtype (array background_voxel) ∧
      t_shape (array data') = t_shape (array background_voxel) ∧
      meta data' = meta background_voxel ∧
      meta new_data = meta background_voxel ∧
      ∀ c, (c < hd 0%nat (t_shape (array background_voxel)))%nat →
        select (array data') c
          = Ok (Tensor (t_dtype (array background_voxel))
                  (t_shape (array new_data))
                  (map (cast (t_dtype (array background_voxel)))
                     (t_elems (array new_data))))
  | (data', Raise _) => data' = background_voxel
  end.
Proof.
  split; [reflexivity |].
  apply (decoder_overwrites_input background_voxel). reflexivity.
Defined.

(** * Further properties *)

(** ** The encoder's loop *)

Lemma loop_app (keys1 keys2 : list string) (d : gmap string value) :
  Enc.loop (keys1 ++ keys2) d = Enc.loop keys1 d ≫= Enc.loop keys2.
Proof.
  revert d. induction keys1 as [|key keys1 IH]; intros d; [done |].
  cbn [app Enc.loop]. destruct (Enc.step d key) as [d1|e]; [| done].
  cbn [mbind result_bind]. apply IH.
Qed.

Lemma loop_only_tensors (keys : list string) (d d' : gmap string value) :
  Enc.loop keys d = Ok d' →
  ∀ k, k ∈ keys → ∃ x, d !! k = Some (VTensor x).
Proof.
  revert d. induction keys as [|key keys IH]; intros d; cbn [Enc.loop].
  - intros _ k Hk. by apply elem_of_nil in Hk.
  - destruct (Enc.step d key) as [d1|e] eqn:E; [| done].
    cbn [mbind result_bind]. intros H k Hk.
    apply step_inv in E as (x & Hx & ->).
    apply elem_of_cons in Hk as [->|Hk]; [eauto |].
    destruct (IH _ H k Hk) as [x' Hx'].
    destruct (decide (key = k)) as [<-|Hne]; [eauto |].
    rewrite lookup_insert_ne in Hx' by done. eauto.
Qed.

(** X1. The encoder returns a sample exactly when the caller's sample holds
    a tensor under every key of [self.keys]. *)
Theorem encoder_returns_iff (self_keys : list string) (data : gmap string value) :
  (∃ d, Enc.call self_keys data = Ok d) ↔
  (∀ k, k ∈ self_keys → ∃ x, data !! k = Some (VTensor x)).
Proof.
  split.
  - intros [d H]. exact (loop_only_tensors _ _ _ H).
  - apply loop_total.
Qed.

(** X2. The exception of the encoder is decided by the first key of
    [self.keys] that does not hold a tensor: [KeyError] when the sample has
    no such key, [TypeError] when the entry is not a tensor. *)
Theorem encoder_first_bad_key (before after : list string) (key : string)
    (data : gmap string value) :
  (∀ k, k ∈ before → ∃ x, data !! k = Some (VTensor x)) →
  (data !! key = None →
     Enc.call (before ++ key :: after) data = Raise KeyError) ∧
  (∀ payload, data !! key = Some (VOther payload) →
     Enc.call (before ++ key :: after) data = Raise TypeError).
Proof.
  intros Hbefore. unfold Enc.call. rewrite loop_app.
  destruct (loop_total before data Hbefore) as [d Hd]. rewrite Hd.
  cbn [mbind result_bind Enc.loop].
  destruct (loop_frame _ _ _ Hd) as [Hframe Hdom].
  split.
  - intros Hnone.
    assert (d !! key = None) as Hk.
    { apply not_elem_of_dom. rewrite Hdom. by apply not_elem_of_dom. }
    unfold Enc.step. by rewrite Hk.
  - intros payload Hother.
    assert (d !! key = Some (VOther payload)) as Hk.
    { rewrite Hframe; [done |]. intros Hin.
      destruct (Hbefore key Hin) as [x Hx]. congruence. }
    unfold Enc.step. by rewrite Hk.
Qed.

Lemma encoder_first_bad_key_witness :
  (∀ k, k ∈ ["label"] → ∃ x, sample !! k = Some (VTensor x)) ∧
  (sample !! "mask" = None →
     Enc.call (["label"] ++ "mask" :: ["image"]) sample = Raise KeyError) ∧
  (∀ payload, sample !! "mask" = Some (VOther payload) →
     Enc.call (["label"] ++ "mask" :: ["image"]) sample = Raise TypeError).
Proof.
  assert (H : ∀ k, k ∈ ["label"] → ∃ x, sample !! k = Some (VTensor x)).
  { intros k Hk. apply list_elem_of_singleton in Hk as ->.
    exists labels_0123. reflexivity. }
  split; [exact H |].
  exact (encoder_first_bad_key ["label"] ["image"] "mask" sample H).
Defined.

(** X3. With each key listed once, what the encoder returns under a key of
    [self.keys] is the encoding of the volume the caller had there. *)
Theorem encoder_encodes_each_key (self_keys : list string)
    (data d : gmap string value) (k : string) (x : tensor) :
  NoDup self_keys → k ∈ self_keys → data !! k = Some (VTensor x) →
  Enc.call self_keys data = Ok d →
  d !! k = Some (VTensor (encoded x)) ∧ Enc.convert x = Ok (encoded x).
Proof.
  intros Hnd Hk Hx H. split; [| apply convert_eq].
  exact (call_lookup_encoded _ _ _ _ _ Hnd Hk Hx H).
Qed.

Lemma encoder_encodes_each_key_witness :
  NoDup ["label"] ∧ "label" ∈ ["label"] ∧
  sample !! "label" = Some (VTensor labels_0123) ∧
  Enc.call ["label"] sample = Ok (<["label" := VTensor (encoded labels_0123)]> sample) ∧
  (<["label" := VTensor (encoded labels_0123)]> sample) !! "label"
    = Some (VTensor (encoded labels_0123)) ∧
  Enc.convert labels_0123 = Ok (encoded labels_0123).
Proof.
  assert (Hnd : NoDup ["label"]) by (apply NoDup_singleton).
  assert (Hin : "label" ∈ ["label"]) by (by left).
  assert (Hx : sample !! "label" = Some (VTensor labels_0123)) by reflexivity.
  assert (H : Enc.call ["label"] sample
              = Ok (<["label" := VTensor (encoded labels_0123)]> sample)).
  { unfold Enc.call. cbn [Enc.loop].
    rewrite (step_tensor sample "label" labels_0123); reflexivity. }
  split; [exact Hnd |]. split; [exact Hin |]. split; [exact Hx |].
  split; [exact H |].
  exact (encoder_encodes_each_key ["label"] sample _ "label" labels_0123 Hnd Hin Hx H).
Defined.

(** X4. With each key listed once, the order of [self.keys] does not
    matter: when the encoder returns a sample for one order, it returns the
    same sample for every other order. *)
Theorem encoder_key_order (keys keys' : list string) (data d : gmap string value) :
  NoDup keys → keys ≡ₚ keys' →
  Enc.call keys data = Ok d → Enc.call keys' data = Ok d.
Proof.
  intros Hnd Hperm H.
  assert (Hnd' : NoDup keys') by (by rewrite <- Hperm).
  pose proof (loop_only_tensors _ _ _ H) as Htensors.
  destruct (loop_total keys' data) as [d' H'].
  { intros k Hk. apply Htensors. by rewrite Hperm. }
  unfold Enc.call at 1. rewrite H'. f_equal. apply map_eq. intros k.
  destruct (decide (k ∈ keys)) as [Hk|Hk].
  - destruct (Htensors k Hk) as [x Hx].
    rewrite (call_lookup_encoded _ _ _ _ _ Hnd Hk Hx H).
    apply (call_lookup_encoded keys' data); [done | by rewrite <- Hperm | done | done].
  - destruct (loop_frame _ _ _ H) as [-> _]; [| done].
    destruct (loop_frame _ _ _ H') as [-> _]; [done |]. by rewrite <- Hperm.
Qed.

Lemma encoder_key_order_witness :
  NoDup ["image"; "label"] ∧ ["image"; "label"] ≡ₚ ["label"; "image"] ∧
  Enc.call ["image"; "label"] sample
    = Ok (<["label" := VTensor (encoded labels_0123)]>
          (<["image" := VTensor (encoded sample_image)]> sample)) ∧
  Enc.call ["label"; "image"] sample
    = Ok (<["label" := VTensor (encoded labels_0123)]>
          (<["image" := VTensor (encoded sample_image)]> sample)).
Proof.
  assert (Hnd : NoDup ["image"; "label"]).
  { apply NoDup_cons. split; [| apply NoDup_singleton].
    intros Hin. by apply list_elem_of_singleton in Hin. }
  assert (Hperm : ["image"; "label"] ≡ₚ ["label"; "image"]) by apply perm_swap.
  assert (H : Enc.call ["image"; "label"] sample
              = Ok (<["label" := VTensor (encoded labels_0123)]>
                    (<["image" := VTensor (encoded sample_image)]> sample))).
  { unfold Enc.call. cbn [Enc.loop].
    rewrite (step_tensor sample "image" sample_image) by reflexivity.
    cbn [mbind result_bind].
    rewrite (step_tensor _ "label" labels_0123); reflexivity. }
  split; [exact Hnd |]. split; [exact Hperm |]. split; [exact H |].
  exact (encoder_key_order _ _ sample _ Hnd Hperm H).
Defined.

(** X5. Running the encoder for the keys [keys1 ++ keys2] is running it for
    [keys1] and then, on the sample it returns, for [keys2]; an exception of
    the first run is the exception of the whole. *)
Theorem encoder_keys_append (keys1 keys2 : list string) (data : gmap string value) :
  Enc.call (keys1 ++ keys2) data = Enc.call keys1 data ≫= Enc.call keys2.
Proof. apply loop_app. Qed.

(** ** The encoder on volumes outside the label domain *)

Lemma convert_binary (y : tensor) :
  binary y →
  Enc.convert y =
  Ok (Tensor torch_float32 (3%nat :: t_shape y)
        (replicate (length (t_elems y)) 0 ++ t_elems y
         ++ replicate (length (t_elems y)) 0)).
Proof.
  intros Hbin. rewrite convert_eq. unfold encoded. do 2 f_equal.
  unfold binary in Hbin. unfold tc_elems, wt_elems, et_elems, indicator.
  induction Hbin as [|v l Hv _ IH]; [done |].
  cbn [map length replicate app].
  apply (f_equal (take (length l))) in IH as Htc.
  rewrite !take_app_length' in Htc by (by rewrite ?length_map, ?length_replicate).
  apply (f_equal (drop (length l))) in IH as Hrest.
  rewrite !drop_app_length' in Hrest by (by rewrite ?length_map, ?length_replicate).
  apply (f_equal (take (length l))) in Hrest as Hwt.
  rewrite !take_app_length' in Hwt by (by rewrite ?length_map).
  apply (f_equal (drop (length l))) in Hrest as Het.
  rewrite !drop_app_length' in Het by (by rewrite ?length_map).
  rewrite Htc, Hwt, Het.
  destruct Hv as [-> | ->]; reflexivity.
Qed.

(** X6. On a volume that already holds only 0 and 1 the encoder returns
    the volume itself as WT channel, between a TC and an ET channel that are
    0 everywhere. *)
Theorem encoder_on_binary_volume (y : tensor) :
  binary y →
  Enc.convert y =
  Ok (Tensor torch_float32 (3%nat :: t_shape y)
        (replicate (length (t_elems y)) 0 ++ t_elems y
         ++ replicate (length (t_elems y)) 0)).
Proof. apply convert_binary. Qed.

Lemma encoder_on_binary_volume_witness :
  binary (array all_combinations) ∧
  Enc.convert (array all_combinations) =
  Ok (Tensor torch_float32 (3%nat :: t_shape (array all_combinations))
        (replicate (length (t_elems (array all_combinations))) 0
         ++ t_elems (array all_combinations)
         ++ replicate (length (t_elems (array all_combinations))) 0)).
Proof.
  assert (H : binary (array all_combinations)).
  { unfold binary, all_combinations. cbn [array t_elems]. each_elem auto. }
  split; [exact H |]. exact (encoder_on_binary_volume _ H).
Defined.

Lemma binary_encoded (x : tensor) : binary (encoded x).
Proof.
  unfold binary, encoded, tc_elems, wt_elems, et_elems. cbn [t_elems].
  rewrite !Forall_app. repeat split; apply binary_indicator.
Qed.

(** X7. A key listed twice in [self.keys] is encoded twice: its entry
    becomes a tensor of shape 3 :: 3 :: shape whose middle slice is the
    encoding of the caller's volume and whose other two slices are 0
    everywhere. *)
Theorem encoder_key_listed_twice (data : gmap string value) (key : string) (x : tensor) :
  data !! key = Some (VTensor x) →
  Enc.call [key; key] data =
  Ok (<[key := VTensor
          (Tensor torch_float32 (3%nat :: 3%nat :: t_shape x)
             (replicate (length (t_elems (encoded x))) 0
              ++ t_elems (encoded x)
              ++ replicate (length (t_elems (encoded x))) 0))]> data).
Proof.
  intros Hx. unfold Enc.call. cbn [Enc.loop].
  rewrite (step_tensor _ _ _ Hx). cbn [mbind result_bind].
  unfold Enc.step at 1. rewrite lookup_insert_eq.
  rewrite (convert_binary _ (binary_encoded x)).
  cbn [mbind result_bind mret result_ret]. by rewrite insert_insert_eq.
Qed.

Lemma encoder_key_listed_twice_witness :
  sample !! "label" = Some (VTensor labels_0123) ∧
  Enc.call ["label"; "label"] sample =
  Ok (<["label" := VTensor
          (Tensor torch_float32 (3%nat :: 3%nat :: t_shape labels_0123)
             (replicate (length (t_elems (encoded labels_0123))) 0
              ++ t_elems (encoded labels_0123)
              ++ replicate (length (t_elems (encoded labels_0123))) 0))]> sample).
Proof.
  split; [reflexivity |].
  apply (encoder_key_listed_twice sample "label" labels_0123). reflexivity.
Defined.

Lemma labels_of_indicators (l l' : list Z) :
  Forall (fun v => 0 ≤ v ≤ 3) l → Forall (fun v => 0 ≤ v ≤ 3) l' →
  map (fun v => of_bool ((v =? 2) || (v =? 3))) l
    = map (fun v => of_bool ((v =? 2) || (v =? 3))) l' →
  map (fun v => of_bool ((v =? 1) || (v =? 2) || (v =? 3))) l
    = map (fun v => of_bool ((v =? 1) || (v =? 2) || (v =? 3))) l' →
  map (fun v => of_bool (v =? 2)) l = map (fun v => of_bool (v =? 2)) l' →
  l = l'.
Proof.
  intros Hl. revert l'. induction Hl as [|v l Hv _ IH]; intros l' Hl' Htc Hwt Het.
  - by destruct l'.
  - destruct Hl' as [|v' l' Hv' Hl']; [done |].
    cbn [map] in Htc, Hwt, Het.
    injection Htc as Htc0 Htc. injection Hwt as Hwt0 Hwt. injection Het as Het0 Het.
    f_equal; [| by apply IH].
    assert (v = 0 ∨ v = 1 ∨ v = 2 ∨ v = 3) as [-> | [-> | [-> | ->]]] by lia;
    assert (v' = 0 ∨ v' = 1 ∨ v' = 2 ∨ v' = 3) as [-> | [-> | [-> | ->]]] by lia;
    done.
Qed.

(** X8. On valid label volumes the encoder loses nothing: two volumes with
    values in {0,1,2,3} that it encodes to one tensor have one shape and
    the same labels. *)
Theorem encoder_injective_on_valid_labels (x x' : tensor) :
  wf x → wf x' → valid_labels x → valid_labels x' →
  Enc.convert x = Enc.convert x' →
  t_shape x = t_shape x' ∧ t_elems x = t_elems x'.
Proof.
  unfold wf. intros Hwf Hwf' Hv Hv'. rewrite !convert_eq. unfold encoded.
  intros [= Hshape Helems]. split; [done |].
  assert (Hlen : length (t_elems x) = length (t_elems x')) by congruence.
  unfold tc_elems, wt_elems, et_elems, indicator in Helems.
  apply app_inj_1 in Helems as [Htc Helems]; [| by rewrite !length_map].
  apply app_inj_1 in Helems as [Hwt Het]; [| by rewrite !length_map].
  by apply labels_of_indicators.
Qed.

Lemma encoder_injective_on_valid_labels_witness :
  wf labels_0123 ∧ wf (float labels_0123) ∧
  valid_labels labels_0123 ∧ valid_labels (float labels_0123) ∧
  Enc.convert labels_0123 = Enc.convert (float labels_0123) ∧
  t_shape labels_0123 = t_shape (float labels_0123) ∧
  t_elems labels_0123 = t_elems (float labels_0123).
Proof.
  assert (Hv : valid_labels labels_0123).
  { unfold valid_labels, labels_0123. cbn [t_elems]. each_elem lia. }
  split; [reflexivity |]. split; [reflexivity |].
  split; [exact Hv |]. split; [exact Hv |]. split; [reflexivity |].
  apply (encoder_injective_on_valid_labels labels_0123 (float labels_0123));
    reflexivity || exact Hv.
Defined.

(** X9. Values other than 1, 2 and 3 are encoded as background: the encoder
    returns for a volume what it returns for the volume with those values
    set to 0. *)
Theorem encoder_outside_domain_is_background (x : tensor) :
  Enc.convert x = Enc.convert (background_outside x).
Proof.
  rewrite !convert_eq. f_equal. unfold encoded. cbn [background_outside t_shape].
  f_equal. unfold tc_elems, wt_elems, et_elems, indicator, background_outside.
  cbn [t_elems]. rewrite !map_map.
  f_equal; [| f_equal]; apply map_ext; intros v;
    destruct (1 <=? v) eqn:E1, (v <=? 3) eqn:E3; cbn [andb]; try done;
    repeat match goal with |- context [v =? ?c] =>
      let E := fresh in destruct (v =? c) eqn:E; [lia |] end; done.
Qed.

(** ** The decoder on any input *)

Lemma decode_voxel_cases (tc wt et : Z) :
  decode_voxel tc wt et = decode_value tc wt et.
Proof.
  unfold decode_voxel, decode_value, truthy.
  destruct (et =? 1), (tc =? 0), (wt =? 0); reflexivity.
Qed.

Lemma voxel_channel (t : tensor) (c i : nat) :
  (c < hd 0%nat (t_shape t))%nat → voxel t c i = channel_elems t c !! i.
Proof. intros Hc. unfold voxel. by rewrite select_channel. Qed.

Lemma decoded_lookup_inv (data : tensor) (i : nat) (v : Z) :
  t_elems (decoded data) !! i = Some v →
  ∃ tc wt et,
    channel_elems data 0 !! i = Some tc ∧
    channel_elems data 1 !! i = Some wt ∧
    channel_elems data 2 !! i = Some et ∧
    v = decode_voxel tc wt et.
Proof.
  unfold decoded, zip_with3. cbn [t_elems]. intros H.
  apply lookup_zip_with_Some in H as ([tc wt] & et & -> & H & Het).
  apply lookup_zip_with_Some in H as (tc' & wt' & [= <- <-] & Htc & Hwt).
  by exists tc, wt, et.
Qed.

Lemma any_gt_3 (t : tensor) :
  any (gt_scalar t 3) = true ↔ ∃ i v, t_elems t !! i = Some v ∧ 3 < v.
Proof.
  unfold any, gt_scalar. cbn [t_elems].
  induction (t_elems t) as [|w l IH]; cbn [map existsb].
  - split; [done |]. by intros (i & v & ? & _).
  - rewrite truthy_of_bool, orb_true_iff, IH, Z.ltb_lt. split.
    + intros [Hw | (i & v & Hv & Hlt)]; [by exists 0%nat, w |].
      by exists (S i), v.
    + intros ([|i] & v & Hv & Hlt); [left | right].
      * by injection Hv as ->.
      * by exists i, v.
Qed.

Lemma call_ok_inv (data data' r : MetaTensor) :
  Dec.call data = (data', Ok r) →
  (3 ≤ hd 0%nat (t_shape (array data)))%nat ∧
  any (gt_scalar (decoded (array data)) 3) = true ∧
  data' = set_array data (decoded (array data)) ∧
  r = mkMetaTensor (decoded (array data)) (meta data).
Proof.
  unfold Dec.call.
  destruct (decide (3 ≤ hd 0%nat (t_shape (array data)))%nat) as [Hn|Hn].
  - rewrite output_of_eq by done. destruct (any _); [| done].
    intros [= <- <-]. repeat split; [done |]. f_equal.
    unfold set_array. by repeat case_match.
  - by rewrite output_of_few_channels by lia.
Qed.

(** X10. On a tensor with fewer than three channels, or with no dimension
    at all, the decoder raises [IndexError] and leaves the caller's tensor
    as it was. *)
Theorem decoder_few_channels (data : MetaTensor) :
  (hd 0%nat (t_shape (array data)) < 3)%nat →
  Dec.call data = (data, Raise IndexError).
Proof.
  intros Hn. unfold Dec.call. by rewrite output_of_few_channels.
Qed.

Lemma decoder_few_channels_witness :
  (hd 0%nat (t_shape (array two_channels)) < 3)%nat ∧
  Dec.call two_channels = (two_channels, Raise IndexError).
Proof.
  assert (H : (hd 0%nat (t_shape (array two_channels)) < 3)%nat) by (cbn; lia).
  split; [exact H |]. exact (decoder_few_channels two_channels H).
Defined.

(** X11. On a tensor with three channels or more and no voxel the decoder
    fails its assertion and leaves the caller's tensor as it was. *)
Theorem decoder_no_voxel (data : MetaTensor) :
  (3 ≤ hd 0%nat (t_shape (array data)))%nat →
  numel (tail (t_shape (array data))) = 0%nat →
  Dec.call data = (data, Raise AssertionError).
Proof.
  intros Hn Hempty. unfold Dec.call. rewrite output_of_eq by done.
  unfold decoded, channel_elems. rewrite Hempty. done.
Qed.

Lemma decoder_no_voxel_witness :
  (3 ≤ hd 0%nat (t_shape (array no_voxel)))%nat ∧
  numel (tail (t_shape (array no_voxel))) = 0%nat ∧
  Dec.call no_voxel = (no_voxel, Raise AssertionError).
Proof.
  assert (Hn : (3 ≤ hd 0%nat (t_shape (array no_voxel)))%nat) by (cbn; lia).
  split; [exact Hn |]. split; [reflexivity |].
  exact (decoder_no_voxel no_voxel Hn eq_refl).
Defined.

(** X12. Whenever the decoder returns, the input has at least three
    channels and the tensor returned is an int64 tensor with the shape of
    one channel of the input, one value per voxel. *)
Theorem decoder_result_shape (data data' r : MetaTensor) :
  wf (array data) → Dec.call data = (data', Ok r) →
  (3 ≤ hd 0%nat (t_shape (array data)))%nat ∧
  t_dtype (array r) = torch_int64 ∧
  t_shape (array r) = tail (t_shape (array data)) ∧
  wf (array r).
Proof.
  intros Hwf H. apply call_ok_inv in H as (Hn & _ & _ & ->). cbn [array].
  repeat split; [done |]. by apply wf_decoded.
Qed.

Lemma decoder_result_shape_witness :
  wf (array all_combinations) ∧
  Dec.call all_combinations
    = ((Dec.call all_combinations).1,
       Ok (mkMetaTensor
             (Tensor torch_int64 [2%nat; 2%nat; 2%nat] [6; 3; 6; 3; 6; 3; 6; 6]) ∅)) ∧
  (3 ≤ hd 0%nat (t_shape (array all_combinations)))%nat ∧
  torch_int64 = torch_int64 ∧
  [2%nat; 2%nat; 2%nat] = tail (t_shape (array all_combinations)) ∧
  wf (Tensor torch_int64 [2%nat; 2%nat; 2%nat] [6; 3; 6; 3; 6; 3; 6; 6]).
Proof.
  split; [reflexivity |]. split; [reflexivity |].
  exact (decoder_result_shape all_combinations _ _ eq_refl eq_refl).
Defined.

(** X13. Whatever integer values the three channels hold, each voxel of
    the tensor the decoder returns is 3 where ET is 1 and TC or WT is 0, and
    6 everywhere else; and at least one voxel is 6. *)
Theorem decoder_result_values (data data' r : MetaTensor) :
  Dec.call data = (data', Ok r) →
  (∀ i tc wt et,
     voxel (array data) 0 i = Some tc →
     voxel (array data) 1 i = Some wt →
     voxel (array data) 2 i = Some et →
     t_elems (array r) !! i
       = Some (if (et =? 1) && ((tc =? 0) || (wt =? 0)) then 3 else 6)) ∧
  (∃ i, t_elems (array r) !! i = Some 6).
Proof.
  intros H. apply call_ok_inv in H as (Hn & Hany & _ & ->). cbn [array]. split.
  - intros i tc wt et. rewrite !voxel_channel by lia. intros Htc Hwt Het.
    rewrite (decoded_lookup _ _ _ _ _ Htc Hwt Het). by rewrite decode_voxel_cases.
  - apply any_gt_3 in Hany as (i & v & Hv & Hlt). exists i. rewrite Hv.
    apply decoded_lookup_inv in Hv as (tc & wt & et & _ & _ & _ & ->).
    rewrite decode_voxel_cases in *. unfold decode_value in *.
    by destruct ((et =? 1) && ((tc =? 0) || (wt =? 0))).
Qed.

Lemma decoder_result_values_witness :
  Dec.call all_combinations
    = ((Dec.call all_combinations).1,
       Ok (mkMetaTensor
             (Tensor torch_int64 [2%nat; 2%nat; 2%nat] [6; 3; 6; 3; 6; 3; 6; 6]) ∅)) ∧
  (∀ i tc wt et,
     voxel (array all_combinations) 0 i = Some tc →
     voxel (array all_combinations) 1 i = Some wt →
     voxel (array all_combinations) 2 i = Some et →
     [6; 3; 6; 3; 6; 3; 6; 6] !! i
       = Some (if (et =? 1) && ((tc =? 0) || (wt =? 0)) then 3 else 6)) ∧
  (∃ i, [6; 3; 6; 3; 6; 3; 6; 6] !! i = Some 6).
Proof.
  split; [reflexivity |].
  exact (decoder_result_values all_combinations _ _ eq_refl).
Defined.

(** X14. On a tensor with three channels or more the decoder returns
    exactly when some voxel does not have ET = 1 together with TC = 0 or
    WT = 0; on every other such tensor it fails its assertion. *)
Theorem decoder_returns_iff (data : MetaTensor) :
  (3 ≤ hd 0%nat (t_shape (array data)))%nat →
  ((∃ r, (Dec.call data).2 = Ok r) ↔
   (∃ i tc wt et,
      voxel (array data) 0 i = Some tc ∧
      voxel (array data) 1 i = Some wt ∧
      voxel (array data) 2 i = Some et ∧
      (et =? 1) && ((tc =? 0) || (wt =? 0)) = false)) ∧
  ((¬ ∃ r, (Dec.call data).2 = Ok r) →
   Dec.call data = (data, Raise AssertionError)).
Proof.
  intros Hn. split; [| intros Hno; destruct (decoder_outcomes data Hn); [exfalso |]; eauto].
  unfold Dec.call. rewrite output_of_eq by done.
  destruct (any _) eqn:Hany; cbn [snd].
  - split; [intros _ | eauto].
    apply any_gt_3 in Hany as (i & v & Hv & Hlt).
    apply decoded_lookup_inv in Hv as (tc & wt & et & Htc & Hwt & Het & ->).
    exists i, tc, wt, et. rewrite !voxel_channel by lia.
    repeat split; try done.
    rewrite decode_voxel_cases in Hlt. unfold decode_value in Hlt.
    destruct ((et =? 1) && ((tc =? 0) || (wt =? 0))); [lia | done].
  - split; [by intros [r ?] |]. intros (i & tc & wt & et & Htc & Hwt & Het & Hcase).
    rewrite !voxel_channel in Htc, Hwt, Het by lia.
    assert (any (gt_scalar (decoded (array data)) 3) = true) as Htrue; [| congruence].
    apply any_gt_3. exists i, 6. split; [| lia].
    rewrite (decoded_lookup _ _ _ _ _ Htc Hwt Het), decode_voxel_cases.
    unfold decode_value. by rewrite Hcase.
Qed.

Lemma decoder_returns_iff_witness :
  (3 ≤ hd 0%nat (t_shape (array core_voxel)))%nat ∧
  ((∃ r, (Dec.call core_voxel).2 = Ok r) ↔
   (∃ i tc wt et,
      voxel (array core_voxel) 0 i = Some tc ∧
      voxel (array core_voxel) 1 i = Some wt ∧
      voxel (array core_voxel) 2 i = Some et ∧
      (et =? 1) && ((tc =? 0) || (wt =? 0)) = false)) ∧
  ((¬ ∃ r, (Dec.call core_voxel).2 = Ok r) →
   Dec.call core_voxel = (core_voxel, Raise AssertionError)).
Proof.
  assert (Hn : (3 ≤ hd 0%nat (t_shape (array core_voxel)))%nat) by (cbn; lia).
  split; [exact Hn |]. exact (decoder_returns_iff core_voxel Hn).
Defined.

Lemma channel_elems_first_three (data : tensor) (c : nat) :
  (c < 3)%nat →
  channel_elems (first_three data) c = channel_elems data c.
Proof.
  intros Hc. unfold channel_elems, first_three. cbn [t_shape t_elems tail].
  set (m := numel (tail (t_shape data))).
  rewrite !take_drop_commute, take_take. do 2 f_equal. nia.
Qed.

(** X15. The decoder reads the first three channels only: on a tensor with
    more channels it returns, or raises, what it does on the first three. *)
Theorem decoder_ignores_further_channels (data : MetaTensor) :
  (3 ≤ hd 0%nat (t_shape (array data)))%nat →
  (Dec.call data).2
  = (Dec.call (mkMetaTensor (first_three (array data)) (meta data))).2.
Proof.
  intros Hn.
  assert (Hdec : decoded (first_three (array data)) = decoded (array data)).
  { unfold decoded. rewrite !channel_elems_first_three by lia. done. }
  unfold Dec.call. cbn [array meta].
  rewrite !output_of_eq by (done || cbn; lia). rewrite Hdec.
  destruct (any _); [| done]. cbn [snd]. do 2 f_equal.
  unfold set_array. cbn [array meta]. by repeat case_match.
Qed.

Lemma decoder_ignores_further_channels_witness :
  (3 ≤ hd 0%nat (t_shape (array four_channels)))%nat ∧
  (Dec.call four_channels).2
  = (Dec.call (mkMetaTensor (first_three (array four_channels))
                 (meta four_channels))).2.
Proof.
  assert (Hn : (3 ≤ hd 0%nat (t_shape (array four_channels)))%nat) by (cbn; lia).
  split; [exact Hn |]. exact (decoder_ignores_further_channels four_channels Hn).
Defined.

(** ** The decoder after itself and after the encoder *)

Lemma zip_with3_diag {A B} (f : A → A → A → B) (l : list A) :
  zip_with3 f l l l = map (fun v => f v v v) l.
Proof.
  unfold zip_with3. induction l as [|v l IH]; cbn [zip zip_with map]; [done |].
  cbn [fst snd]. by rewrite IH.
Qed.

Lemma decoded_values (data : tensor) :
  Forall (fun v => v = 3 ∨ v = 6) (t_elems (decoded data)).
Proof.
  apply Forall_lookup. intros i v Hv.
  apply decoded_lookup_inv in Hv as (tc & wt & et & _ & _ & _ & ->).
  rewrite decode_voxel_cases. unfold decode_value.
  destruct ((et =? 1) && ((tc =? 0) || (wt =? 0))); auto.
Qed.

(** X16. The decoder cannot be repeated on the caller's tensor: once a call
    has returned and overwritten the tensor, a second call on it returns 6
    at every voxel. *)
Theorem decoder_second_call (data data' r : MetaTensor) :
  wf (array data) → Dec.call data = (data', Ok r) →
  (Dec.call data').2
  = Ok (mkMetaTensor
          (Tensor torch_int64 (t_shape (array r)) (map (fun _ => 6) (t_elems (array r))))
          (meta data)).
Proof.
  intros Hwf H. apply call_ok_inv in H as (Hn & Hany & -> & ->). cbn [array].
  set (out := decoded (array data)) in *.
  pose proof (wf_decoded _ Hwf Hn) as Hwfd. fold out in Hwfd.
  assert (Hsel := fun c => select_set_array data out c Hwfd eq_refl).
  destruct (Hsel 0%nat ltac:(lia)) as [Hset _].
  assert (Hn' : (3 ≤ hd 0%nat (t_shape (array (set_array data out))))%nat)
    by (by rewrite Hset).
  assert (Hch : ∀ c, (c < 3)%nat →
            channel_elems (array (set_array data out)) c
            = map (cast (t_dtype (array data))) (t_elems out)).
  { intros c Hc. destruct (Hsel c ltac:(lia)) as [_ Hc'].
    rewrite select_channel in Hc' by lia. by injection Hc'. }
  assert (Hdec : decoded (array (set_array data out))
                 = Tensor torch_int64 (t_shape out) (map (fun _ => 6) (t_elems out))).
  { unfold decoded at 1. rewrite !Hch by lia. rewrite zip_with3_diag, map_map.
    f_equal; [by rewrite Hset |].
    apply Forall_fmap_ext_1. eapply Forall_impl; [apply decoded_values |].
    intros v [-> | ->]; by destruct (t_dtype (array data)). }
  unfold Dec.call. rewrite output_of_eq by done. rewrite Hdec.
  assert (any (gt_scalar (Tensor torch_int64 (t_shape out)
                            (map (fun _ => 6) (t_elems out))) 3) = true) as ->.
  { apply any_gt_3 in Hany as (i & v & Hv & _). apply any_gt_3.
    exists i, 6. cbn [t_elems]. split; [| lia].
    by rewrite list_lookup_fmap, Hv. }
  cbn [snd]. do 2 f_equal.
  unfold set_array at 1. repeat case_match; cbn [meta]; by rewrite ?Hset.
Qed.

Lemma decoder_second_call_witness :
  wf (array all_combinations) ∧
  Dec.call all_combinations
    = ((Dec.call all_combinations).1,
       Ok (mkMetaTensor
             (Tensor torch_int64 [2%nat; 2%nat; 2%nat] [6; 3; 6; 3; 6; 3; 6; 6]) ∅)) ∧
  (Dec.call (Dec.call all_combinations).1).2
  = Ok (mkMetaTensor
          (Tensor torch_int64 [2%nat; 2%nat; 2%nat]
             (map (fun _ => 6) [6; 3; 6; 3; 6; 3; 6; 6]))
          (meta all_combinations)).
Proof.
  split; [reflexivity |]. split; [reflexivity |].
  exact (decoder_second_call all_combinations _ _ eq_refl eq_refl).
Defined.

(** X17. Decoding what the encoder returns gives 6 at every voxel, whatever
    the label volume held, and an assertion failure on a volume with no
    voxel: the labels cannot be read back from the result. *)
Theorem roundtrip_any_volume (x : tensor) :
  wf x →
  roundtrip x =
  if bool_decide (t_elems x = [])
  then Raise AssertionError
  else Ok (Tensor torch_int64 (t_shape x) (map (fun _ => 6) (t_elems x))).
Proof.
  intros Hwf. unfold roundtrip, Dec.call.
  rewrite convert_eq. cbn [mbind result_bind array].
  rewrite output_of_eq by (cbn; lia).
  assert (Hdec : decoded (encoded x)
                 = Tensor torch_int64 (t_shape x) (map (fun _ => 6) (t_elems x))).
  { unfold decoded. destruct (channel_elems_encoded x Hwf) as (-> & -> & ->).
    cbn [encoded t_shape tail]. f_equal.
    unfold tc_elems, wt_elems, et_elems, indicator. rewrite zip_with3_map_same.
    apply map_ext. intros v.
    destruct (v =? 1), (v =? 2), (v =? 3); reflexivity. }
  rewrite Hdec. unfold any, gt_scalar. cbn [t_elems].
  destruct (t_elems x) as [|v l]; [done |].
  rewrite bool_decide_eq_false_2 by done. done.
Qed.

Lemma roundtrip_any_volume_witness :
  wf sample_image ∧
  roundtrip sample_image =
  if bool_decide (t_elems sample_image = [])
  then Raise AssertionError
  else Ok (Tensor torch_int64 (t_shape sample_image)
             (map (fun _ => 6) (t_elems sample_image))).
Proof.
  split; [reflexivity |].
  apply (roundtrip_any_volume sample_image). reflexivity.
Defined.
